(** * ThreeMaze: first-person maze walking with AABB wall collisions

    A shallow embedding of [src/components/ThreeMaze.js]: the mouse-look
    handler, the key handlers, the wall registry built by [createMaze], the
    collision test [checkWallCollisions] and the per-frame update [animate],
    together with the small part of three.js they call ([Vector3],
    [Quaternion], [Euler], [Matrix4], [Box3]).

    JavaScript numbers are modelled by the real numbers: [+], [-], [*], [/],
    [Math.sqrt], [Math.sin], [Math.cos] and [Math.PI] are the exact
    operations of [R].  Rounding, infinities and NaN are outside the model. *)

From Stdlib Require Import Reals Lra RNsatz List Bool String.
Import ListNotations.

Open Scope R_scope.

(** ** JavaScript number tests *)

Module JS.

(** [a >= b] and [a <= b] as the boolean tests the code branches on. *)
Definition geb (a b : R) : bool := if Rge_dec a b then true else false.
Definition leb (a b : R) : bool := if Rle_dec a b then true else false.

(** [a || b] on a number that may be [undefined]: [undefined] and [0] are
    falsy, every other number is truthy. *)
Definition or_else (a : option R) (b : R) : R :=
  match a with
  | Some v => if Req_dec_T v 0 then b else v
  | None => b
  end.

(** [n || 1] on a number. *)
Definition or_num (n d : R) : R := if Req_dec_T n 0 then d else n.

End JS.

(** ** The three.js values the component uses *)

Module THREE.

(** [THREE.Vector3]. *)
Record Vector3 : Type := mkVector3 { x : R; y : R; z : R }.

(** [THREE.Quaternion]; the fields are three.js's [x], [y], [z], [w]. *)
Record Quaternion : Type := mkQuaternion { qx : R; qy : R; qz : R; qw : R }.

(** [THREE.Euler] with the default order ['XYZ']. *)
Record Euler : Type := mkEuler { ex : R; ey : R; ez : R }.

(** [THREE.Box3]. *)
Record Box3 : Type := mkBox3 { min : Vector3; max : Vector3 }.

(** [THREE.Matrix4], the sixteen elements in column-major order. *)
Record Matrix4 : Type := mkMatrix4 {
  te0 : R; te1 : R; te2 : R; te3 : R;
  te4 : R; te5 : R; te6 : R; te7 : R;
  te8 : R; te9 : R; te10 : R; te11 : R;
  te12 : R; te13 : R; te14 : R; te15 : R }.

(** [a.add(b)] *)
Definition add (a b : Vector3) : Vector3 :=
  mkVector3 (x a + x b) (y a + y b) (z a + z b).

(** [a.multiplyScalar(s)] *)
Definition multiplyScalar (a : Vector3) (s : R) : Vector3 :=
  mkVector3 (x a * s) (y a * s) (z a * s).

(** [a.divideScalar(s)] is [a.multiplyScalar(1 / s)]. *)
Definition divideScalar (a : Vector3) (s : R) : Vector3 :=
  multiplyScalar a (1 / s).

(** [a.length()] *)
Definition length (a : Vector3) : R :=
  sqrt (x a * x a + y a * y a + z a * z a).

(** [a.normalize()] is [a.divideScalar(a.length() || 1)]. *)
Definition normalize (a : Vector3) : Vector3 :=
  divideScalar a (JS.or_num (length a) 1).

(** [a.y = v] *)
Definition set_y (a : Vector3) (v : R) : Vector3 := mkVector3 (x a) v (z a).

(** [Quaternion.setFromEuler] for the order ['XYZ']. *)
Definition setFromEuler (e : Euler) : Quaternion :=
  let c1 := cos (ex e / 2) in
  let c2 := cos (ey e / 2) in
  let c3 := cos (ez e / 2) in
  let s1 := sin (ex e / 2) in
  let s2 := sin (ey e / 2) in
  let s3 := sin (ez e / 2) in
  mkQuaternion (s1 * c2 * c3 + c1 * s2 * s3)
               (c1 * s2 * c3 - s1 * c2 * s3)
               (c1 * c2 * s3 + s1 * s2 * c3)
               (c1 * c2 * c3 - s1 * s2 * s3).

(** [v.applyQuaternion(q)]: [t = 2 * cross(q.xyz, v)], then
    [v + q.w * t + cross(q.xyz, t)]. *)
Definition applyQuaternion (v : Vector3) (q : Quaternion) : Vector3 :=
  let tx := 2 * (qy q * z v - qz q * y v) in
  let ty := 2 * (qz q * x v - qx q * z v) in
  let tz := 2 * (qx q * y v - qy q * x v) in
  mkVector3 (x v + qw q * tx + qy q * tz - qz q * ty)
            (y v + qw q * ty + qz q * tx - qx q * tz)
            (z v + qw q * tz + qx q * ty - qy q * tx).

(** [Matrix4.compose(position, quaternion, scale)]. *)
Definition compose (p : Vector3) (q : Quaternion) (s : Vector3) : Matrix4 :=
  let x2 := qx q + qx q in
  let y2 := qy q + qy q in
  let z2 := qz q + qz q in
  let xx := qx q * x2 in
  let xy := qx q * y2 in
  let xz := qx q * z2 in
  let yy := qy q * y2 in
  let yz := qy q * z2 in
  let zz := qz q * z2 in
  let wx := qw q * x2 in
  let wy := qw q * y2 in
  let wz := qw q * z2 in
  mkMatrix4
    ((1 - (yy + zz)) * x s) ((xy + wz) * x s) ((xz - wy) * x s) 0
    ((xy - wz) * y s) ((1 - (xx + zz)) * y s) ((yz + wx) * y s) 0
    ((xz + wy) * z s) ((yz - wx) * z s) ((1 - (xx + yy)) * z s) 0
    (x p) (y p) (z p) 1.

(** [v.applyMatrix4(m)] *)
Definition applyMatrix4 (v : Vector3) (m : Matrix4) : Vector3 :=
  let w := 1 / (te3 m * x v + te7 m * y v + te11 m * z v + te15 m) in
  mkVector3 ((te0 m * x v + te4 m * y v + te8 m * z v + te12 m) * w)
            ((te1 m * x v + te5 m * y v + te9 m * z v + te13 m) * w)
            ((te2 m * x v + te6 m * y v + te10 m * z v + te14 m) * w).

(** [box.expandByPoint(p)]: [min.min(p)], [max.max(p)]. *)
Definition expandByPoint (b : Box3) (p : Vector3) : Box3 :=
  mkBox3
    (mkVector3 (Rmin (x (min b)) (x p)) (Rmin (y (min b)) (y p)) (Rmin (z (min b)) (z p)))
    (mkVector3 (Rmax (x (max b)) (x p)) (Rmax (y (max b)) (y p)) (Rmax (z (max b)) (z p))).

(** [box.setFromPoints(points)] empties the box and expands it by every
    point.  three.js's empty box is [(+Infinity, -Infinity)], so the first
    expansion yields the box [(p0, p0)]; the model starts there. *)
Definition setFromPoints (p0 : Vector3) (ps : list Vector3) : Box3 :=
  fold_left expandByPoint ps (mkBox3 p0 p0).

(** [box.applyMatrix4(m)]: the eight corners, in three.js's order, are
    transformed and the box is rebuilt from them. *)
Definition box_applyMatrix4 (b : Box3) (m : Matrix4) : Box3 :=
  let lo := min b in
  let hi := max b in
  setFromPoints
    (applyMatrix4 (mkVector3 (x lo) (y lo) (z lo)) m)
    [ applyMatrix4 (mkVector3 (x lo) (y lo) (z hi)) m;
      applyMatrix4 (mkVector3 (x lo) (y hi) (z lo)) m;
      applyMatrix4 (mkVector3 (x lo) (y hi) (z hi)) m;
      applyMatrix4 (mkVector3 (x hi) (y lo) (z lo)) m;
      applyMatrix4 (mkVector3 (x hi) (y lo) (z hi)) m;
      applyMatrix4 (mkVector3 (x hi) (y hi) (z lo)) m;
      applyMatrix4 (mkVector3 (x hi) (y hi) (z hi)) m ].

(** [this.intersectsBox(box)] *)
Definition intersectsBox (this box : Box3) : bool :=
  JS.geb (x (max box)) (x (min this)) && JS.leb (x (min box)) (x (max this)) &&
  JS.geb (y (max box)) (y (min this)) && JS.leb (y (min box)) (y (max this)) &&
  JS.geb (z (max box)) (z (min this)) && JS.leb (z (min box)) (z (max this)).

(** The bounding box [BoxGeometry(width, height, depth).computeBoundingBox()]
    yields: the box is centred on the origin. *)
Definition BoxGeometry_boundingBox (width height depth : R) : Box3 :=
  mkBox3 (mkVector3 (- (width / 2)) (- (height / 2)) (- (depth / 2)))
         (mkVector3 (width / 2) (height / 2) (depth / 2)).

End THREE.

(** ** The component state and its handlers *)

Module ThreeMaze.

Import THREE.

(** [playerRef.current] *)
Record Player : Type := mkPlayer {
  height : R;
  speed : R;
  velocity : Vector3;
  onFloor : bool }.

(** [moveStateRef.current] *)
Record MoveState : Type := mkMoveState {
  forward : bool;
  backward : bool;
  left : bool;
  right : bool }.

(** [rotationRef.current] *)
Record Rotation : Type := mkRotation {
  horizontal : R;
  vertical : R }.

(** [pointerRef.current] *)
Record Pointer : Type := mkPointer {
  isLocked : bool;
  prevX : R;
  prevY : R }.

(** [cameraRef.current]: its position and its Euler rotation; the camera's
    quaternion is kept equal to [setFromEuler rotation] by three.js. *)
Record Camera : Type := mkCamera {
  position : Vector3;
  rotation : Euler }.

(** A wall mesh of [wallsRef.current] with its [userData.bbox]. *)
Record Wall : Type := mkWall {
  wall_position : Vector3;
  wall_rotation : Euler;
  bbox : Box3 }.

(** The mutable references of the component, and whether the instructions
    overlay is displayed. *)
Record State : Type := mkState {
  camera : Camera;
  player : Player;
  moveState : MoveState;
  rotationRef : Rotation;
  walls : list Wall;
  pointer : Pointer;
  instructions : bool }.

(** The fields of a mouse event the handler reads; [None] is [undefined]. *)
Record MouseEvent : Type := mkMouseEvent {
  movementX : option R;
  mozMovementX : option R;
  webkitMovementX : option R;
  movementY : option R;
  mozMovementY : option R;
  webkitMovementY : option R }.

Definition quaternion (c : Camera) : Quaternion := setFromEuler (rotation c).

(** *** createMaze *)

(** [new THREE.BoxGeometry(10, 3, 0.5)] *)
Definition wallGeometry : Box3 := BoxGeometry_boundingBox 10 3 0.5.

(** [new THREE.Box3().setFromObject(wall)]: the geometry's bounding box
    moved by the mesh's world matrix, which for a mesh without parent is
    [compose(position, quaternion, (1, 1, 1))]. *)
Definition setFromObject (p : Vector3) (r : Euler) : Box3 :=
  box_applyMatrix4 wallGeometry
    (compose p (setFromEuler r) (mkVector3 1 1 1)).

(** The body of the [wallPositions.forEach] callback. *)
Definition createWall (p : Vector3) (r : Euler) : Wall :=
  mkWall p r (setFromObject p r).

Definition wallPositions : list (Vector3 * Euler) :=
  [ (mkVector3 0 1.5 (-5), mkEuler 0 0 0);
    (mkVector3 5 1.5 0, mkEuler 0 (PI / 2) 0);
    (mkVector3 (-5) 1.5 0, mkEuler 0 (PI / 2) 0);
    (mkVector3 0 1.5 5, mkEuler 0 0 0);
    (mkVector3 5 1.5 10, mkEuler 0 (PI / 2) 0);
    (mkVector3 10 1.5 5, mkEuler 0 0 0) ].

(** [createMaze] pushes one wall per entry onto [wallsRef.current]. *)
Definition createMaze (ws : list Wall) : list Wall :=
  fold_left (fun acc pr => acc ++ [createWall (fst pr) (snd pr)]) wallPositions ws.

(** *** Pointer lock and mouse look *)

(** [onPointerLockChange]; [granted] tells whether the document's pointer
    lock element is the renderer's canvas. *)
Definition onPointerLockChange (granted : bool) (s : State) : State :=
  if granted
  then mkState (camera s) (player s) (moveState s) (rotationRef s) (walls s)
         (mkPointer true (prevX (pointer s)) (prevY (pointer s))) false
  else mkState (camera s) (player s) (moveState s) (rotationRef s) (walls s)
         (mkPointer false (prevX (pointer s)) (prevY (pointer s))) true.

Definition sensitivity : R := 0.002.

Definition onMouseMove (event : MouseEvent) (s : State) : State :=
  if isLocked (pointer s) then
    let mX := JS.or_else (movementX event)
                (JS.or_else (mozMovementX event)
                   (JS.or_else (webkitMovementX event) 0)) in
    let mY := JS.or_else (movementY event)
                (JS.or_else (mozMovementY event)
                   (JS.or_else (webkitMovementY event) 0)) in
    let h := horizontal (rotationRef s) - mX * sensitivity in
    let v := vertical (rotationRef s) - mY * sensitivity in
    let v' := Rmax (- PI / 2) (Rmin (PI / 2) v) in
    mkState
      (mkCamera (position (camera s))
                (mkEuler v' h (ez (rotation (camera s)))))
      (player s) (moveState s) (mkRotation h v') (walls s) (pointer s)
      (instructions s)
  else s.

(** *** Keys *)

Definition set_forward (b : bool) (m : MoveState) : MoveState :=
  mkMoveState b (backward m) (left m) (right m).
Definition set_backward (b : bool) (m : MoveState) : MoveState :=
  mkMoveState (forward m) b (left m) (right m).
Definition set_left (b : bool) (m : MoveState) : MoveState :=
  mkMoveState (forward m) (backward m) b (right m).
Definition set_right (b : bool) (m : MoveState) : MoveState :=
  mkMoveState (forward m) (backward m) (left m) b.

(** The [switch (event.code)] shared by [onKeyDown] and [onKeyUp]. *)
Definition setKey (code : string) (b : bool) (m : MoveState) : MoveState :=
  if (String.eqb code "ArrowUp" || String.eqb code "KeyW")%bool then set_forward b m
  else if (String.eqb code "ArrowLeft" || String.eqb code "KeyA")%bool then set_left b m
  else if (String.eqb code "ArrowDown" || String.eqb code "KeyS")%bool then set_backward b m
  else if (String.eqb code "ArrowRight" || String.eqb code "KeyD")%bool then set_right b m
  else m.

Definition with_moveState (m : MoveState) (s : State) : State :=
  mkState (camera s) (player s) m (rotationRef s) (walls s) (pointer s)
    (instructions s).

Definition onKeyDown (code : string) (s : State) : State :=
  with_moveState (setKey code true (moveState s)) s.

Definition onKeyUp (code : string) (s : State) : State :=
  with_moveState (setKey code false (moveState s)) s.

(** *** Collisions *)

(** The box [checkWallCollisions] builds around [position]. *)
Definition playerBBox (height : R) (position : Vector3) : Box3 :=
  mkBox3 (mkVector3 (x position - 0.3) (y position - height) (z position - 0.3))
         (mkVector3 (x position + 0.3) (y position) (z position + 0.3)).

(** The [for (const wall of wallsRef.current)] loop: it returns [true] at
    the first wall whose box the player's box intersects. *)
Fixpoint anyWallIntersects (b : Box3) (ws : list Wall) : bool :=
  match ws with
  | [] => false
  | wall :: rest =>
      if intersectsBox b (bbox wall) then true else anyWallIntersects b rest
  end.

Definition checkWallCollisions (height : R) (ws : list Wall)
    (position : Vector3) : bool :=
  anyWallIntersects (playerBBox height position) ws.

(** The last step of [animate]: the new position is the camera position plus
    the velocity, and it replaces the camera position only when it collides
    with no wall. *)
Definition resolve (height : R) (ws : list Wall)
    (currentPosition proposedVelocity : Vector3) : Vector3 :=
  let newPosition := add currentPosition proposedVelocity in
  if negb (checkWallCollisions height ws newPosition)
  then newPosition
  else currentPosition.

(** *** The frame update *)

(** [direction]: the camera's [-Z] axis, its [y] zeroed, normalised. *)
Definition direction (c : Camera) : Vector3 :=
  normalize (set_y (applyQuaternion (mkVector3 0 0 (-1)) (quaternion c)) 0).

(** [rightVector]: the camera's [+X] axis, normalised. *)
Definition rightVector (c : Camera) : Vector3 :=
  normalize (applyQuaternion (mkVector3 1 0 0) (quaternion c)).

(** The velocity [animate] accumulates from the four movement flags;
    [speed] is [playerRef.current.speed * delta]. *)
Definition computeVelocity (m : MoveState) (c : Camera) (speed : R) : Vector3 :=
  let v0 := mkVector3 0 0 0 in
  let v1 := if forward m then add v0 (multiplyScalar (direction c) speed) else v0 in
  let v2 := if backward m then add v1 (multiplyScalar (direction c) (- speed)) else v1 in
  let v3 := if right m then add v2 (multiplyScalar (rightVector c) speed) else v2 in
  if left m then add v3 (multiplyScalar (rightVector c) (- speed)) else v3.

(** One call of [animate], with [delta] the value of [clock.getDelta()]. *)
Definition animate (delta : R) (s : State) : State :=
  if isLocked (pointer s) then
    let v := computeVelocity (moveState s) (camera s)
               (speed (player s) * delta) in
    mkState
      (mkCamera
         (resolve (height (player s)) (walls s) (position (camera s)) v)
         (rotation (camera s)))
      (mkPlayer (height (player s)) (speed (player s)) v (onFloor (player s)))
      (moveState s) (rotationRef s) (walls s) (pointer s) (instructions s)
  else s.

(** *** Events and runs *)

Inductive Event : Type :=
| KeyDown (code : string)
| KeyUp (code : string)
| MouseMove (event : MouseEvent)
| PointerLockChange (granted : bool)
| Frame (delta : R).

Definition step (s : State) (e : Event) : State :=
  match e with
  | KeyDown code => onKeyDown code s
  | KeyUp code => onKeyUp code s
  | MouseMove event => onMouseMove event s
  | PointerLockChange granted => onPointerLockChange granted s
  | Frame delta => animate delta s
  end.

Definition run (s : State) (es : list Event) : State := fold_left step es s.

(** The state after [init]: the refs' initial values, the camera placed at
    [(1, height, 1)] and the maze created. *)
Definition init : State :=
  mkState
    (mkCamera (mkVector3 1 1.8 1) (mkEuler 0 0 0))
    (mkPlayer 1.8 5.0 (mkVector3 0 0 0) true)
    (mkMoveState false false false false)
    (mkRotation 0 0)
    (createMaze [])
    (mkPointer false 0 0)
    true.

(** A mouse event that reports only [movementX] and [movementY]. *)
Definition mouseDelta (dx dy : R) : MouseEvent :=
  mkMouseEvent (Some dx) None None (Some dy) None None.

End ThreeMaze.

(** ** Predicates the properties are stated with *)

Module Props.

Import THREE ThreeMaze.

(** Closed-interval overlap of two boxes on the three axes: boxes that only
    touch overlap. *)
Definition overlaps (a b : Box3) : Prop :=
  (x (min a) <= x (max b) /\ x (min b) <= x (max a)) /\
  (y (min a) <= y (max b) /\ y (min b) <= y (max a)) /\
  (z (min a) <= z (max b) /\ z (min b) <= z (max a)).

(** The player's box at [p] overlaps the box of no wall of [ws]. *)
Definition clear (height : R) (ws : list Wall) (p : Vector3) : Prop :=
  Forall (fun w => ~ overlaps (playerBBox height p) (bbox w)) ws.

(** The player's box at [p] overlaps the box of some wall of [ws]. *)
Definition blocked (height : R) (ws : list Wall) (p : Vector3) : Prop :=
  Exists (fun w => overlaps (playerBBox height p) (bbox w)) ws.

(** The six boxes the walls of the reference maze are expected to have. *)
Definition mazeBoxes : list Box3 :=
  [ mkBox3 (mkVector3 (-5) 0 (-5.25)) (mkVector3 5 3 (-4.75));
    mkBox3 (mkVector3 4.75 0 (-5)) (mkVector3 5.25 3 5);
    mkBox3 (mkVector3 (-5.25) 0 (-5)) (mkVector3 (-4.75) 3 5);
    mkBox3 (mkVector3 (-5) 0 4.75) (mkVector3 5 3 5.25);
    mkBox3 (mkVector3 4.75 0 5) (mkVector3 5.25 3 15);
    mkBox3 (mkVector3 5 0 4.75) (mkVector3 15 3 5.25) ].


(** The vertical look angle lies in [[-PI/2, PI/2]]. *)
Definition pitchClamped (s : State) : Prop :=
  - PI / 2 <= vertical (rotationRef s) <= PI / 2.

(** The camera's Euler rotation mirrors the look angles, without roll. *)
Definition lookSynced (s : State) : Prop :=
  rotation (camera s) =
  mkEuler (vertical (rotationRef s)) (horizontal (rotationRef s)) 0.

(** The state with the pointer lock set to [b], everything else kept. *)
Definition withLock (b : bool) (s : State) : State :=
  mkState (camera s) (player s) (moveState s) (rotationRef s) (walls s)
    (mkPointer b (prevX (pointer s)) (prevY (pointer s))) (instructions s).

(** The pointer gets locked and one mouse move turns the camera by one
    radian to the left and, clamped, straight up. *)
Definition lookUpLeft : list Event :=
  [ PointerLockChange true; MouseMove (mouseDelta (-500) (-1000)) ].

(** The state [lookUpLeft] leads to from [init]. *)
Definition lookingUpLeft : State :=
  mkState (mkCamera (mkVector3 1 1.8 1) (mkEuler (PI / 2) 1 0))
    (player init) (moveState init) (mkRotation 1 (PI / 2)) (walls init)
    (mkPointer true 0 0) false.

End Props.

(** ** The collision notes' proposed handlers *)

Module Notes.

Import THREE ThreeMaze.

(** [handleCollisions(position, velocity)], the sliding response: the move
    along [X] alone is tried and committed to [position] when it is free,
    then the move along [Z] alone from wherever [position] then is. *)
Definition handleCollisions (height : R) (ws : list Wall)
    (position velocity : Vector3) : Vector3 :=
  let xMovement := mkVector3 (x velocity) 0 0 in
  let newPositionX := add position xMovement in
  let position1 :=
    if negb (checkWallCollisions height ws newPositionX)
    then newPositionX else position in
  let zMovement := mkVector3 0 0 (z velocity) in
  let newPositionZ := add position1 zMovement in
  if negb (checkWallCollisions height ws newPositionZ)
  then newPositionZ else position1.

End Notes.

(** ** Further predicates and event sequences *)

Module MoreProps.

Import THREE ThreeMaze Props.

(** The key codes the key handlers react to. *)
Definition movementCodes : list string :=
  [ "ArrowUp"; "KeyW"; "ArrowLeft"; "KeyA";
    "ArrowDown"; "KeyS"; "ArrowRight"; "KeyD" ]%string.

(** A box whose minimum is below its maximum on the three axes. *)
Definition wellFormed (b : Box3) : Prop :=
  x (min b) <= x (max b) /\ y (min b) <= y (max b) /\ z (min b) <= z (max b).

(** One mouse-move event per pair [(dx, dy)]. *)
Definition mouseMoves (ds : list (R * R)) : list Event :=
  map (fun d => MouseMove (mouseDelta (fst d) (snd d))) ds.

(** The sum of the horizontal deltas. *)
Definition sumX (ds : list (R * R)) : R :=
  fold_right (fun d acc => fst d + acc) 0 ds.

(** The sign-free saturation of an angle to [[-PI/2, PI/2]]. *)
Definition saturate (t : R) : R :=
  if Rle_dec (PI / 2) t then PI / 2
  else if Rle_dec t (- PI / 2) then - PI / 2
  else t.

(** What the events of a run never change: the walls, the player's height
    and speed. *)
Definition sameWorld (s0 s : State) : Prop :=
  walls s = walls s0 /\
  height (player s) = height (player s0) /\
  speed (player s) = speed (player s0).

(** The player's box at the camera position overlaps no wall. *)
Definition playerClear (s : State) : Prop :=
  clear (height (player s)) (walls s) (position (camera s)).

End MoreProps.

(** * Properties *)

(** ** Number tests *)

Module JSFacts.

Lemma geb_true (a b : R) : JS.geb a b = true <-> b <= a.
Proof.
  unfold JS.geb. destruct (Rge_dec a b) as [H | H]; split; intro G;
    try reflexivity; try discriminate; lra.
Qed.

Lemma leb_true (a b : R) : JS.leb a b = true <-> a <= b.
Proof.
  unfold JS.leb. destruct (Rle_dec a b) as [H | H]; split; intro G;
    try reflexivity; try discriminate; lra.
Qed.

Lemma or_else_some (v b : R) : v <> 0 -> JS.or_else (Some v) b = v.
Proof.
  intro Hv. unfold JS.or_else.
  destruct (Req_dec_T v 0); [contradiction | reflexivity].
Qed.

Lemma or_num_nonzero (n d : R) : n <> 0 -> JS.or_num n d = n.
Proof.
  intro Hn. unfold JS.or_num.
  destruct (Req_dec_T n 0); [contradiction | reflexivity].
Qed.

Lemma or_num_zero (d : R) : JS.or_num 0 d = d.
Proof.
  unfold JS.or_num. destruct (Req_dec_T 0 0) as [_ | H]; [reflexivity | now elim H].
Qed.

End JSFacts.

(** ** Vectors, rotations and boxes *)

Module THREEFacts.

Import THREE Props.

Lemma Vector3_eq (a b c a' b' c' : R) :
  a = a' -> b = b' -> c = c' -> mkVector3 a b c = mkVector3 a' b' c'.
Proof. intros -> -> ->. reflexivity. Qed.

Lemma Vector3_eta (v : Vector3) : mkVector3 (x v) (y v) (z v) = v.
Proof. destruct v. reflexivity. Qed.

Lemma add_zero (v : Vector3) : add v (mkVector3 0 0 0) = v.
Proof.
  destruct v as [a b c]. unfold add. simpl. apply Vector3_eq; lra.
Qed.

Lemma intersectsBox_overlaps (a b : Box3) :
  intersectsBox a b = true <-> overlaps a b.
Proof.
  unfold intersectsBox, overlaps.
  rewrite !andb_true_iff, !JSFacts.geb_true, !JSFacts.leb_true. tauto.
Qed.

Lemma intersectsBox_false (a b : Box3) :
  intersectsBox a b = false <-> ~ overlaps a b.
Proof.
  rewrite <- intersectsBox_overlaps. destruct (intersectsBox a b); split;
    intro H; try reflexivity; try discriminate; try (now elim H); auto.
Qed.

(** Half-angle forms of the sine and the cosine. *)
Lemma sin_half (t : R) : sin t = 2 * sin (t / 2) * cos (t / 2).
Proof.
  rewrite <- sin_2a. f_equal. lra.
Qed.

Lemma cos_half (t : R) :
  cos t = cos (t / 2) * cos (t / 2) - sin (t / 2) * sin (t / 2).
Proof.
  rewrite <- cos_2a. f_equal. lra.
Qed.

Lemma sin_cos_one (t : R) : sin t * sin t + cos t * cos t = 1.
Proof.
  generalize (sin2_cos2 t). unfold Rsqr. tauto.
Qed.

(** The quaternion of an Euler rotation with no roll. *)
Lemma setFromEuler_no_roll (p yw : R) :
  setFromEuler (mkEuler p yw 0) =
  mkQuaternion (sin (p / 2) * cos (yw / 2)) (cos (p / 2) * sin (yw / 2))
               (sin (p / 2) * sin (yw / 2)) (cos (p / 2) * cos (yw / 2)).
Proof.
  unfold setFromEuler. simpl.
  replace (0 / 2) with 0 by lra. rewrite sin_0, cos_0.
  f_equal; ring.
Qed.

End THREEFacts.

(** ** The movement axes of the camera *)

Module AxesFacts.

Import THREE ThreeMaze Props THREEFacts.

Ltac half_angles p yw :=
  rewrite ?(sin_half p), ?(cos_half p), ?(sin_half yw), ?(cos_half yw);
  generalize (sin_cos_one (p / 2)) (sin_cos_one (yw / 2));
  generalize (sin (p / 2)) (cos (p / 2)) (sin (yw / 2)) (cos (yw / 2));
  intros s1 c1 s2 c2 H1 H2.

(** The camera's [-Z] axis: first turned about the vertical axis by the yaw,
    then about the world [X] axis by the pitch. *)
Lemma forward_axis (p yw : R) :
  applyQuaternion (mkVector3 0 0 (-1)) (setFromEuler (mkEuler p yw 0)) =
  mkVector3 (- sin yw) (sin p * cos yw) (- (cos p * cos yw)).
Proof.
  rewrite setFromEuler_no_roll. unfold applyQuaternion. simpl.
  apply Vector3_eq; half_angles p yw; nsatz.
Qed.

(** The camera's [+X] axis. *)
Lemma right_axis (p yw : R) :
  applyQuaternion (mkVector3 1 0 0) (setFromEuler (mkEuler p yw 0)) =
  mkVector3 (cos yw) (sin p * sin yw) (- (cos p * sin yw)).
Proof.
  rewrite setFromEuler_no_roll. unfold applyQuaternion. simpl.
  apply Vector3_eq; half_angles p yw; nsatz.
Qed.

Lemma normalize_unit (v : Vector3) :
  x v * x v + y v * y v + z v * z v = 1 -> normalize v = v.
Proof.
  intro H. unfold normalize, divideScalar, multiplyScalar, length.
  rewrite H, sqrt_1, JSFacts.or_num_nonzero by lra.
  destruct v as [a b c]. simpl. apply Vector3_eq; lra.
Qed.

(** [rightVector] keeps the vertical component of the camera's [+X] axis. *)
Lemma rightVector_axis (pos : Vector3) (p yw : R) :
  rightVector (mkCamera pos (mkEuler p yw 0)) =
  mkVector3 (cos yw) (sin p * sin yw) (- (cos p * sin yw)).
Proof.
  unfold rightVector, quaternion. simpl. rewrite right_axis.
  apply normalize_unit. simpl.
  generalize (sin_cos_one p) (sin_cos_one yw).
  generalize (sin p) (cos p) (sin yw) (cos yw). intros s1 c1 s2 c2 H1 H2. nsatz.
Qed.

(** [direction] is horizontal whatever the camera's rotation. *)
Lemma direction_y (c : Camera) : y (direction c) = 0.
Proof.
  unfold direction, normalize, divideScalar, multiplyScalar, set_y. simpl. lra.
Qed.

(** With a level camera [direction] is the yaw-rotated [-Z] axis. *)
Lemma direction_level (pos : Vector3) (yw : R) :
  direction (mkCamera pos (mkEuler 0 yw 0)) = mkVector3 (- sin yw) 0 (- cos yw).
Proof.
  unfold direction, quaternion. simpl. rewrite forward_axis.
  rewrite sin_0, cos_0. unfold set_y. simpl.
  rewrite normalize_unit.
  - apply Vector3_eq; lra.
  - simpl. generalize (sin_cos_one yw). lra.
Qed.


End AxesFacts.

(** ** The boxes of the maze walls *)

Module MazeFacts.

Import THREE ThreeMaze Props THREEFacts.

(** The world matrix of a mesh turned about the vertical axis by [t] and
    placed at [p] turns a point and then translates it. *)
Lemma applyMatrix4_yaw (v p : Vector3) (t : R) :
  applyMatrix4 v (compose p (setFromEuler (mkEuler 0 t 0)) (mkVector3 1 1 1)) =
  mkVector3 (cos t * x v + sin t * z v + x p)
            (y v + y p)
            (- sin t * x v + cos t * z v + z p).
Proof.
  unfold applyMatrix4, compose, setFromEuler. simpl.
  replace (0 / 2) with 0 by lra. rewrite sin_0, cos_0.
  rewrite (sin_half t), (cos_half t).
  generalize (sin_cos_one (t / 2)).
  generalize (sin (t / 2)) (cos (t / 2)). intros s2 c2 H2.
  replace (1 / (0 * x v + 0 * y v + 0 * z v + 1)) with 1 by (field; lra).
  apply Vector3_eq; nsatz.
Qed.

Ltac eval_min_max :=
  repeat match goal with
  | |- context [Rmin ?a ?b] =>
      first [ rewrite (Rmin_left a b) by lra | rewrite (Rmin_right a b) by lra ]
  | |- context [Rmax ?a ?b] =>
      first [ rewrite (Rmax_left a b) by lra | rewrite (Rmax_right a b) by lra ]
  end.

(** The box of a wall that is not turned. *)
Lemma setFromObject_straight (p : Vector3) :
  setFromObject p (mkEuler 0 0 0) =
  mkBox3 (mkVector3 (x p - 5) (y p - 1.5) (z p - 0.25))
         (mkVector3 (x p + 5) (y p + 1.5) (z p + 0.25)).
Proof.
  unfold setFromObject, box_applyMatrix4, setFromPoints.
  rewrite !applyMatrix4_yaw. rewrite sin_0, cos_0.
  unfold wallGeometry, BoxGeometry_boundingBox, expandByPoint. simpl.
  eval_min_max. f_equal; apply Vector3_eq; lra.
Qed.

(** The box of a wall turned by a quarter turn about the vertical axis. *)
Lemma setFromObject_turned (p : Vector3) :
  setFromObject p (mkEuler 0 (PI / 2) 0) =
  mkBox3 (mkVector3 (x p - 0.25) (y p - 1.5) (z p - 5))
         (mkVector3 (x p + 0.25) (y p + 1.5) (z p + 5)).
Proof.
  unfold setFromObject, box_applyMatrix4, setFromPoints.
  rewrite !applyMatrix4_yaw. rewrite sin_PI2, cos_PI2.
  unfold wallGeometry, BoxGeometry_boundingBox, expandByPoint. simpl.
  eval_min_max. f_equal; apply Vector3_eq; lra.
Qed.

Lemma createMaze_boxes : map bbox (createMaze []) = mazeBoxes.
Proof.
  unfold createMaze, wallPositions, createWall, mazeBoxes. simpl.
  rewrite !setFromObject_straight, !setFromObject_turned. simpl.
  repeat (f_equal; try (apply Vector3_eq; lra)).
Qed.

End MazeFacts.

(** ** The collision test and the resolver *)

Module CollisionFacts.

Import THREE ThreeMaze Props THREEFacts.

Lemma geb_false (a b : R) : JS.geb a b = false <-> a < b.
Proof.
  unfold JS.geb. destruct (Rge_dec a b); split; intro H;
    try reflexivity; try discriminate; lra.
Qed.

Lemma leb_false (a b : R) : JS.leb a b = false <-> b < a.
Proof.
  unfold JS.leb. destruct (Rle_dec a b); split; intro H;
    try reflexivity; try discriminate; lra.
Qed.

(** Decides the comparisons of a goal whose operands [lra] can order. *)
Ltac eval_tests :=
  repeat match goal with
  | |- context [JS.geb ?a ?b] =>
      first [ replace (JS.geb a b) with true
                by (symmetry; apply JSFacts.geb_true; lra)
            | replace (JS.geb a b) with false
                by (symmetry; apply geb_false; lra) ]
  | |- context [JS.leb ?a ?b] =>
      first [ replace (JS.leb a b) with true
                by (symmetry; apply JSFacts.leb_true; lra)
            | replace (JS.leb a b) with false
                by (symmetry; apply leb_false; lra) ]
  end.

(** The loop looks at the walls' boxes only. *)
Lemma anyWallIntersects_boxes (b : Box3) (ws : list Wall) :
  anyWallIntersects b ws = existsb (intersectsBox b) (map bbox ws).
Proof.
  induction ws as [| w ws IH]; simpl.
  - reflexivity.
  - rewrite IH. destruct (intersectsBox b (bbox w)); reflexivity.
Qed.

Lemma checkWallCollisions_true (h : R) (ws : list Wall) (p : Vector3) :
  checkWallCollisions h ws p = true <-> blocked h ws p.
Proof.
  unfold checkWallCollisions, blocked.
  induction ws as [| w ws IH]; simpl.
  - split; [discriminate | intro H; inversion H].
  - destruct (intersectsBox (playerBBox h p) (bbox w)) eqn:E.
    + split; [intros _ | reflexivity].
      apply Exists_cons_hd. now apply intersectsBox_overlaps.
    + rewrite IH. split; intro H.
      * now apply Exists_cons_tl.
      * inversion H as [? ? Hw | ? ? Hr]; subst; [| exact Hr].
        apply intersectsBox_overlaps in Hw. congruence.
Qed.

Lemma checkWallCollisions_false (h : R) (ws : list Wall) (p : Vector3) :
  checkWallCollisions h ws p = false <-> clear h ws p.
Proof.
  unfold checkWallCollisions, clear.
  induction ws as [| w ws IH]; simpl.
  - split; [constructor | reflexivity].
  - destruct (intersectsBox (playerBBox h p) (bbox w)) eqn:E.
    + split; [discriminate |]. intro H. inversion H as [| ? ? Hw _]; subst.
      elim Hw. now apply intersectsBox_overlaps.
    + rewrite IH. split; intro H.
      * constructor; [| exact H]. now apply intersectsBox_false.
      * now inversion H.
Qed.

Lemma resolve_accepts (h : R) (ws : list Wall) (cur vel : Vector3) :
  checkWallCollisions h ws (add cur vel) = false ->
  resolve h ws cur vel = add cur vel.
Proof. intro H. unfold resolve. now rewrite H. Qed.

Lemma resolve_rejects (h : R) (ws : list Wall) (cur vel : Vector3) :
  checkWallCollisions h ws (add cur vel) = true ->
  resolve h ws cur vel = cur.
Proof. intro H. unfold resolve. now rewrite H. Qed.

(** The collision test against the reference maze, on its six boxes. *)
Lemma checkWallCollisions_maze (h : R) (p : Vector3) :
  checkWallCollisions h (walls init) p =
  existsb (intersectsBox (playerBBox h p)) mazeBoxes.
Proof.
  unfold checkWallCollisions. rewrite anyWallIntersects_boxes.
  simpl walls. now rewrite MazeFacts.createMaze_boxes.
Qed.

End CollisionFacts.

(** * The collision resolver *)

Import THREE ThreeMaze Props THREEFacts CollisionFacts.


(** A position inside the first wall of the reference maze, left where it is
    by a zero velocity. *)
Lemma resolve_inside_wall :
  resolve 1.8 (walls init) (mkVector3 0 1.8 (-5)) (mkVector3 0 0 0) =
  mkVector3 0 1.8 (-5).
Proof.
  apply eq_trans with (add (mkVector3 0 1.8 (-5)) (mkVector3 0 0 0)).
  - unfold resolve. destruct (negb _); [reflexivity | now rewrite add_zero].
  - apply add_zero.
Qed.

(** C2, as stated, fails: the player standing inside the first wall of the
    reference maze and proposing no movement is returned in place, still
    intersecting that wall. *)
Lemma resolve_may_return_blocked :
  blocked 1.8 (walls init)
    (resolve 1.8 (walls init) (mkVector3 0 1.8 (-5)) (mkVector3 0 0 0)).
Proof.
  rewrite resolve_inside_wall.
  apply checkWallCollisions_true. rewrite checkWallCollisions_maze.
  unfold mazeBoxes, playerBBox, intersectsBox. simpl. eval_tests. reflexivity.
Qed.

(** C2, amended.  When the player's box at the current position intersects
    the box of no wall, the box at the position the resolver returns
    intersects the box of no wall either. *)
Theorem resolve_keeps_clear :
  forall (h : R) (ws : list Wall) (cur vel : Vector3),
    clear h ws cur -> clear h ws (resolve h ws cur vel).
Proof.
  intros h ws cur vel Hcur. unfold resolve.
  destruct (checkWallCollisions h ws (add cur vel)) eqn:E; simpl.
  - exact Hcur.
  - now apply checkWallCollisions_false.
Qed.

Lemma resolve_keeps_clear_witness :
  clear 1.8 (walls init) (mkVector3 0 1.8 1) /\
  clear 1.8 (walls init)
    (resolve 1.8 (walls init) (mkVector3 0 1.8 1) (mkVector3 0 0 (-6))).
Proof.
  assert (H : clear 1.8 (walls init) (mkVector3 0 1.8 1)).
  { apply checkWallCollisions_false. rewrite checkWallCollisions_maze.
    unfold mazeBoxes, playerBBox, intersectsBox. simpl. eval_tests. reflexivity. }
  split; [exact H |].
  apply (resolve_keeps_clear 1.8 (walls init) (mkVector3 0 1.8 1)
           (mkVector3 0 0 (-6)) H).
Defined.

(** C4. Scenario A in the reference maze of six walls: the wall placed at
    [(0, 1.5, -5)] has the box [x in [-5, 5]], [y in [0, 3]],
    [z in [-5.25, -4.75]]; from [(0, 1.8, 1)] the move to [z = -5] is
    rejected and the move to [z = 0] is accepted. *)
Theorem scenario_A :
  List.length (walls init) = 6%nat /\
  option_map wall_position (nth_error (walls init) 0) = Some (mkVector3 0 1.5 (-5)) /\
  option_map bbox (nth_error (walls init) 0) =
    Some (mkBox3 (mkVector3 (-5) 0 (-5.25)) (mkVector3 5 3 (-4.75))) /\
  add (mkVector3 0 1.8 1) (mkVector3 0 0 (-6)) = mkVector3 0 1.8 (-5) /\
  resolve (height (player init)) (walls init)
    (mkVector3 0 1.8 1) (mkVector3 0 0 (-6)) = mkVector3 0 1.8 1 /\
  add (mkVector3 0 1.8 1) (mkVector3 0 0 (-1)) = mkVector3 0 1.8 0 /\
  resolve (height (player init)) (walls init)
    (mkVector3 0 1.8 1) (mkVector3 0 0 (-1)) = mkVector3 0 1.8 0.
Proof.
  assert (A6 : add (mkVector3 0 1.8 1) (mkVector3 0 0 (-6)) = mkVector3 0 1.8 (-5))
    by (unfold add; simpl; apply Vector3_eq; lra).
  assert (A1 : add (mkVector3 0 1.8 1) (mkVector3 0 0 (-1)) = mkVector3 0 1.8 0)
    by (unfold add; simpl; apply Vector3_eq; lra).
  split; [reflexivity |]. split; [reflexivity |]. split.
  { simpl. rewrite MazeFacts.setFromObject_straight. simpl.
    do 2 f_equal; apply Vector3_eq; lra. }
  split; [exact A6 |]. split; [| split; [exact A1 |]].
  - apply resolve_rejects. rewrite A6, checkWallCollisions_maze.
    unfold mazeBoxes, playerBBox, intersectsBox. simpl. eval_tests. reflexivity.
  - rewrite resolve_accepts; [exact A1 |].
    rewrite A1, checkWallCollisions_maze.
    unfold mazeBoxes, playerBBox, intersectsBox. simpl. eval_tests. reflexivity.
Qed.

(** C8. A zero proposed velocity returns the current position, whatever the
    position and the walls, also when the player's box intersects a wall. *)
Theorem resolve_zero_velocity :
  forall (h : R) (ws : list Wall) (p : Vector3),
    resolve h ws p (mkVector3 0 0 0) = p.
Proof.
  intros h ws p. unfold resolve. rewrite add_zero.
  destruct (negb (checkWallCollisions h ws p)); reflexivity.
Qed.

(** * Mouse look *)

Module LookFacts.

Import THREE ThreeMaze Props.

Lemma clamp_range (v : R) :
  - PI / 2 <= Rmax (- PI / 2) (Rmin (PI / 2) v) <= PI / 2.
Proof.
  pose proof PI_RGT_0 as HPI. split.
  - apply Rmax_l.
  - apply Rmax_lub; [lra | apply Rmin_l].
Qed.

Lemma clamp_above (v : R) :
  PI / 2 <= v -> Rmax (- PI / 2) (Rmin (PI / 2) v) = PI / 2.
Proof.
  intro Hv. pose proof PI_RGT_0 as HPI.
  rewrite Rmin_left by exact Hv. apply Rmax_right. lra.
Qed.

(** What a mouse move does while the pointer is locked, for an event that
    reports non-zero [movementX] and [movementY]. *)
Lemma onMouseMove_locked (dx dy : R) (s : State) :
  isLocked (pointer s) = true -> dx <> 0 -> dy <> 0 ->
  onMouseMove (mouseDelta dx dy) s =
  let h := horizontal (rotationRef s) - dx * sensitivity in
  let v := Rmax (- PI / 2) (Rmin (PI / 2) (vertical (rotationRef s) - dy * sensitivity)) in
  mkState (mkCamera (position (camera s)) (mkEuler v h (ez (rotation (camera s)))))
    (player s) (moveState s) (mkRotation h v) (walls s) (pointer s)
    (instructions s).
Proof.
  intros HL Hx Hy. unfold onMouseMove, mouseDelta. rewrite HL.
  cbn [movementX movementY].
  rewrite !JSFacts.or_else_some by assumption. reflexivity.
Qed.

Lemma onMouseMove_unlocked (e : MouseEvent) (s : State) :
  isLocked (pointer s) = false -> onMouseMove e s = s.
Proof. intro HL. unfold onMouseMove. now rewrite HL. Qed.

Lemma onMouseMove_pitchClamped (e : MouseEvent) (s : State) :
  pitchClamped s -> pitchClamped (onMouseMove e s).
Proof.
  intro H. unfold onMouseMove. destruct (isLocked (pointer s)); [| exact H].
  unfold pitchClamped. simpl. apply clamp_range.
Qed.

Lemma animate_rotationRef (delta : R) (s : State) :
  rotationRef (animate delta s) = rotationRef s.
Proof. unfold animate. destruct (isLocked (pointer s)); reflexivity. Qed.

Lemma animate_rotation (delta : R) (s : State) :
  rotation (camera (animate delta s)) = rotation (camera s).
Proof. unfold animate. destruct (isLocked (pointer s)); reflexivity. Qed.

Lemma step_pitchClamped (s : State) (e : Event) :
  pitchClamped s -> pitchClamped (step s e).
Proof.
  intro H. destruct e as [code | code | event | granted | delta]; simpl.
  - exact H.
  - exact H.
  - now apply onMouseMove_pitchClamped.
  - destruct granted; exact H.
  - unfold pitchClamped. now rewrite animate_rotationRef.
Qed.

Lemma step_lookSynced (s : State) (e : Event) :
  lookSynced s -> lookSynced (step s e).
Proof.
  intro H. destruct e as [code | code | event | granted | delta]; simpl.
  - exact H.
  - exact H.
  - unfold onMouseMove. destruct (isLocked (pointer s)); [| exact H].
    unfold lookSynced in *. simpl. now rewrite H.
  - destruct granted; exact H.
  - unfold lookSynced. now rewrite animate_rotationRef, animate_rotation.
Qed.

Lemma run_invariant (P : State -> Prop) :
  (forall s e, P s -> P (step s e)) ->
  forall es s, P s -> P (run s es).
Proof.
  intros Hstep es. induction es as [| e es IH]; intros s Hs; simpl.
  - exact Hs.
  - apply IH. now apply Hstep.
Qed.

Lemma init_pitchClamped : pitchClamped init.
Proof.
  unfold pitchClamped. simpl. pose proof PI_RGT_0. lra.
Qed.

Lemma init_lookSynced : lookSynced init.
Proof. reflexivity. Qed.

End LookFacts.

Import LookFacts.

(** C6. In every state the component reaches from its initial state, through
    any sequence of key, mouse, pointer-lock and frame events, the vertical
    look angle lies in [[-PI/2, PI/2]], and so does the camera's rotation
    about [X]; a mouse move handled under pointer lock leaves it in that
    range whatever it was before. *)
Theorem pitch_stays_clamped :
  forall es : list Event,
    pitchClamped (run init es) /\
    - PI / 2 <= ex (rotation (camera (run init es))) <= PI / 2 /\
    (forall (s : State) (event : MouseEvent),
       pitchClamped (onMouseMove event (withLock true s))).
Proof.
  intro es.
  assert (Hc : pitchClamped (run init es))
    by (apply run_invariant; [exact step_pitchClamped | exact init_pitchClamped]).
  assert (Hs : lookSynced (run init es))
    by (apply run_invariant; [exact step_lookSynced | exact init_lookSynced]).
  split; [exact Hc |]. split.
  - unfold lookSynced in Hs. rewrite Hs. exact Hc.
  - intros s event. unfold onMouseMove, pitchClamped. simpl. apply clamp_range.
Qed.

(** C7. A look event with [dx = 100] and [dy = 50] leaves the whole state,
    and so both look angles, unchanged while the pointer is not locked;
    while it is locked the event lowers the horizontal angle by exactly
    [100 * 0.002 = 0.2] and the camera's rotation about [Y] takes the new
    angle. *)
Theorem look_event_needs_lock :
  forall s : State,
    let s' := onMouseMove (mouseDelta 100 50) s in
    if isLocked (pointer s)
    then horizontal (rotationRef s') = horizontal (rotationRef s) - 0.2 /\
         ey (rotation (camera s')) = horizontal (rotationRef s) - 0.2 /\
         100 * sensitivity = 0.2
    else s' = s.
Proof.
  intros s s'. destruct (isLocked (pointer s)) eqn:HL.
  - unfold s'. rewrite onMouseMove_locked by (try assumption; lra).
    simpl. unfold sensitivity. repeat split; lra.
  - apply onMouseMove_unlocked. exact HL.
Qed.

(** * The frame update *)

Module FrameFacts.

Import THREE ThreeMaze Props THREEFacts AxesFacts CollisionFacts LookFacts.

Lemma animate_unlocked (delta : R) (s : State) :
  isLocked (pointer s) = false -> animate delta s = s.
Proof. intro HL. unfold animate. now rewrite HL. Qed.

Lemma animate_velocity (delta : R) (s : State) :
  isLocked (pointer s) = true ->
  velocity (player (animate delta s)) =
  computeVelocity (moveState s) (camera s) (speed (player s) * delta).
Proof. intro HL. unfold animate. now rewrite HL. Qed.

Lemma animate_position (delta : R) (s : State) :
  isLocked (pointer s) = true ->
  position (camera (animate delta s)) =
  resolve (height (player s)) (walls s) (position (camera s))
    (computeVelocity (moveState s) (camera s) (speed (player s) * delta)).
Proof. intro HL. unfold animate. now rewrite HL. Qed.

(** Without strafing the velocity is horizontal. *)
Lemma computeVelocity_no_strafe (m : MoveState) (c : Camera) (sp : R) :
  left m = false -> right m = false -> y (computeVelocity m c sp) = 0.
Proof.
  intros Hl Hr. unfold computeVelocity. rewrite Hl, Hr.
  destruct (forward m), (backward m); simpl; rewrite ?direction_y; lra.
Qed.

(** The resolver returns the current height or the candidate's. *)
Lemma resolve_y (h : R) (ws : list Wall) (cur vel : Vector3) :
  y vel = 0 -> y (resolve h ws cur vel) = y cur.
Proof.
  intro Hv. unfold resolve.
  destruct (negb (checkWallCollisions h ws (add cur vel))); simpl; lra.
Qed.

Lemma PI2_le_2 : PI / 2 <= 2.
Proof. pose proof PI_4. lra. Qed.

Lemma run_lookUpLeft : run init lookUpLeft = lookingUpLeft.
Proof.
  unfold run, lookUpLeft. cbn [fold_left step].
  rewrite onMouseMove_locked by (try reflexivity; lra).
  cbn -[init Rmax Rmin PI]. unfold lookingUpLeft.
  rewrite clamp_above.
  - unfold sensitivity. simpl.
    replace (0 - -500 * 0.002) with 1 by lra. reflexivity.
  - unfold sensitivity. simpl. pose proof PI2_le_2. lra.
Qed.

Lemma sin_1_pos : 0 < sin 1.
Proof.
  pose proof PI2_1. apply sin_gt_0; lra.
Qed.

Lemma cos_1_pos : 0 < cos 1.
Proof.
  pose proof PI2_1. apply cos_gt_0; lra.
Qed.

End FrameFacts.

Import AxesFacts FrameFacts.

(** C9. While the pointer is not locked a frame changes nothing, whatever
    the four movement flags are: in particular the camera position stays. *)
Theorem animate_needs_lock :
  forall (delta : R) (s : State),
    isLocked (pointer s) = false ->
    animate delta s = s /\
    position (camera (animate delta s)) = position (camera s).
Proof.
  intros delta s HL. rewrite (animate_unlocked delta s HL). split; reflexivity.
Qed.

Lemma animate_needs_lock_witness :
  let s := run init [KeyDown "KeyW"; KeyDown "KeyD"; KeyDown "KeyA"; KeyDown "KeyS"] in
  moveState s = mkMoveState true true true true /\
  isLocked (pointer s) = false /\
  animate 1 s = s /\
  position (camera (animate 1 s)) = position (camera s).
Proof.
  intro s. split; [reflexivity |]. split; [reflexivity |].
  apply (animate_needs_lock 1 s). reflexivity.
Defined.

(** C10. When neither left nor right is pressed a frame keeps the height of
    the camera position, for every rotation of the camera: the forward
    direction has its vertical component zeroed before it is normalised. *)
Theorem forward_backward_keeps_height :
  forall (delta : R) (s : State),
    left (moveState s) = false ->
    right (moveState s) = false ->
    y (direction (camera s)) = 0 /\
    y (position (camera (animate delta s))) = y (position (camera s)).
Proof.
  intros delta s Hl Hr. split; [apply direction_y |].
  destruct (isLocked (pointer s)) eqn:HL.
  - rewrite animate_position by exact HL.
    apply resolve_y. now apply computeVelocity_no_strafe.
  - now rewrite animate_unlocked.
Qed.

Lemma forward_backward_keeps_height_witness :
  let s := step lookingUpLeft (KeyDown "KeyW") in
  left (moveState s) = false /\
  right (moveState s) = false /\
  y (direction (camera s)) = 0 /\
  y (position (camera (animate 1 s))) = y (position (camera s)).
Proof.
  intro s. split; [reflexivity |]. split; [reflexivity |].
  apply (forward_backward_keeps_height 1 s); reflexivity.
Defined.

(** C3, evaluated on the code.  After the pointer is locked and one mouse
    move has turned the camera one radian to the left and straight up,
    [rightVector] is [(cos 1, sin 1, 0)]: its vertical component is kept.
    With only the right key pressed, a frame of 16 ms then raises the camera
    from height [1.8] to [1.8 + 5 * 0.016 * sin 1]. *)
Theorem strafing_leaves_the_floor :
  let s := run init (lookUpLeft ++ [KeyDown "KeyD"]) in
  rotation (camera s) = mkEuler (PI / 2) 1 0 /\
  moveState s = mkMoveState false false false true /\
  rightVector (camera s) = mkVector3 (cos 1) (sin 1) 0 /\
  y (position (camera s)) = 1.8 /\
  y (position (camera (animate 0.016 s))) = 1.8 + 5 * 0.016 * sin 1 /\
  y (position (camera s)) < y (position (camera (animate 0.016 s))).
Proof.
  intro s.
  assert (Hs : s = with_moveState (mkMoveState false false false true) lookingUpLeft).
  { unfold s, run. rewrite fold_left_app. fold (run init lookUpLeft).
    rewrite run_lookUpLeft. reflexivity. }
  assert (Hr : rightVector (camera s) = mkVector3 (cos 1) (sin 1) 0).
  { rewrite Hs. cbn [with_moveState camera lookingUpLeft].
    rewrite rightVector_axis, sin_PI2, cos_PI2. apply Vector3_eq; lra. }
  pose proof sin_1_pos as Hsin. pose proof cos_1_pos as Hcos.
  pose proof (COS_bound 1) as [_ Hc1]. pose proof (SIN_bound 1) as [_ Hs1].
  assert (Hy : y (position (camera (animate 0.016 s))) = 1.8 + 5 * 0.016 * sin 1).
  { rewrite animate_position by (rewrite Hs; reflexivity).
    unfold computeVelocity. rewrite Hr. rewrite Hs.
    cbn [with_moveState moveState camera player walls position lookingUpLeft
         forward backward left right height speed init].
    rewrite resolve_accepts.
    - unfold add, multiplyScalar. simpl. lra.
    - rewrite checkWallCollisions_maze.
      unfold mazeBoxes, playerBBox, intersectsBox, add, multiplyScalar. simpl.
      eval_tests. reflexivity. }
  split; [rewrite Hs; reflexivity |]. split; [rewrite Hs; reflexivity |].
  split; [exact Hr |]. split; [rewrite Hs; reflexivity |].
  split; [exact Hy |].
  rewrite Hy. rewrite Hs. cbn [with_moveState camera position lookingUpLeft y]. lra.
Qed.

(** * Diagonal movement *)

Module DiagonalFacts.

Import THREE ThreeMaze Props THREEFacts AxesFacts.




End DiagonalFacts.

Import DiagonalFacts.




(** * Further properties of the handlers *)

(** ** Keys *)

Module KeyFacts.

Import THREE ThreeMaze Props MoreProps.

(** Which flag a code addresses does not depend on the value written. *)
Lemma setKey_flag (code : string) :
  (forall b m, setKey code b m = set_forward b m) \/
  (forall b m, setKey code b m = set_left b m) \/
  (forall b m, setKey code b m = set_backward b m) \/
  (forall b m, setKey code b m = set_right b m) \/
  (forall b m, setKey code b m = m).
Proof.
  unfold setKey.
  destruct (String.eqb code "ArrowUp" || String.eqb code "KeyW")%bool; [tauto |].
  destruct (String.eqb code "ArrowLeft" || String.eqb code "KeyA")%bool; [tauto |].
  destruct (String.eqb code "ArrowDown" || String.eqb code "KeyS")%bool; [tauto |].
  destruct (String.eqb code "ArrowRight" || String.eqb code "KeyD")%bool; tauto.
Qed.

Lemma setKey_unrecognised (code : string) (b : bool) (m : MoveState) :
  ~ In code movementCodes -> setKey code b m = m.
Proof.
  intro Hn. unfold setKey.
  assert (E : forall c, In c movementCodes -> String.eqb code c = false).
  { intros c Hc. apply String.eqb_neq. intro Heq. subst c. exact (Hn Hc). }
  rewrite !E by (unfold movementCodes; simpl; tauto). reflexivity.
Qed.

Lemma with_moveState_same (s : State) : with_moveState (moveState s) s = s.
Proof. destruct s. reflexivity. Qed.

Lemma setKey_overwrite (code : string) (b b' : bool) (m : MoveState) :
  setKey code b (setKey code b' m) = setKey code b m.
Proof.
  destruct (setKey_flag code) as [H | [H | [H | [H | H]]]];
    rewrite !H; destruct m; reflexivity.
Qed.


End KeyFacts.

Import MoreProps KeyFacts.

(** X1. A key code that is none of the eight movement codes is ignored by
    both key handlers: the state is unchanged. *)
Theorem keys_unrecognised_ignored :
  forall (code : string) (s : State),
    ~ In code movementCodes ->
    onKeyDown code s = s /\ onKeyUp code s = s.
Proof.
  intros code s Hn. unfold onKeyDown, onKeyUp.
  rewrite !setKey_unrecognised by exact Hn.
  split; apply with_moveState_same.
Qed.

Lemma keys_unrecognised_ignored_witness :
  ~ In "Space"%string movementCodes /\
  onKeyDown "Space" init = init /\ onKeyUp "Space" init = init.
Proof.
  assert (Hn : ~ In "Space"%string movementCodes).
  { unfold movementCodes. simpl. intros [H | [H | [H | [H | [H | [H | [H | [H | H]]]]]]]];
      try discriminate H; exact H. }
  split; [exact Hn |]. apply (keys_unrecognised_ignored "Space" init Hn).
Defined.

(** X2. The last event on a key wins: releasing after pressing equals
    releasing, pressing after releasing equals pressing, and repeating a
    press (key auto-repeat) changes nothing more. *)
Theorem last_key_event_wins :
  forall (code : string) (s : State),
    onKeyUp code (onKeyDown code s) = onKeyUp code s /\
    onKeyDown code (onKeyUp code s) = onKeyDown code s /\
    onKeyDown code (onKeyDown code s) = onKeyDown code s.
Proof.
  intros code s. unfold onKeyDown, onKeyUp, with_moveState. simpl.
  rewrite !setKey_overwrite. repeat split; reflexivity.
Qed.


(** ** Walls and boxes *)

Module WallFacts.

Import THREE ThreeMaze Props MoreProps THREEFacts CollisionFacts.

Lemma blocked_incl (h : R) (ws ws' : list Wall) (p : Vector3) :
  incl ws ws' -> blocked h ws p -> blocked h ws' p.
Proof.
  unfold blocked. intros Hi H. apply Exists_exists in H as [w [Hw Ho]].
  apply Exists_exists. exists w. split; [now apply Hi | exact Ho].
Qed.

Lemma checkWallCollisions_incl (h : R) (ws ws' : list Wall) (p : Vector3) :
  incl ws ws' -> incl ws' ws ->
  checkWallCollisions h ws p = checkWallCollisions h ws' p.
Proof.
  intros H1 H2.
  destruct (checkWallCollisions h ws p) eqn:E, (checkWallCollisions h ws' p) eqn:E';
    try reflexivity.
  - apply checkWallCollisions_true in E. apply (blocked_incl h ws ws' p H1) in E.
    apply checkWallCollisions_true in E. congruence.
  - apply checkWallCollisions_true in E'. apply (blocked_incl h ws' ws p H2) in E'.
    apply checkWallCollisions_true in E'. congruence.
Qed.

Lemma expandByPoint_wellFormed (b : Box3) (p : Vector3) :
  wellFormed b -> wellFormed (expandByPoint b p).
Proof.
  unfold wellFormed, expandByPoint. simpl. intros [Hx [Hy Hz]].
  repeat split.
  - apply Rle_trans with (x (min b)); [apply Rmin_l |].
    apply Rle_trans with (x (max b)); [exact Hx | apply Rmax_l].
  - apply Rle_trans with (y (min b)); [apply Rmin_l |].
    apply Rle_trans with (y (max b)); [exact Hy | apply Rmax_l].
  - apply Rle_trans with (z (min b)); [apply Rmin_l |].
    apply Rle_trans with (z (max b)); [exact Hz | apply Rmax_l].
Qed.

Lemma fold_expand_wellFormed (ps : list Vector3) (b : Box3) :
  wellFormed b -> wellFormed (fold_left expandByPoint ps b).
Proof.
  revert b. induction ps as [| p ps IH]; intros b Hb; simpl.
  - exact Hb.
  - apply IH. now apply expandByPoint_wellFormed.
Qed.

Lemma createMaze_app (ws : list Wall) : createMaze ws = ws ++ createMaze [].
Proof.
  unfold createMaze, wallPositions. simpl. rewrite <- !app_assoc. reflexivity.
Qed.

End WallFacts.

Import WallFacts.


(** X5. Walls only ever block: a position that collides with a list of
    walls collides with every list that contains those walls, so adding
    walls never frees a position. *)
Theorem more_walls_block_more :
  forall (h : R) (ws ws' : list Wall) (p : Vector3),
    incl ws ws' ->
    checkWallCollisions h ws p = true ->
    checkWallCollisions h ws' p = true.
Proof.
  intros h ws ws' p Hi Hc.
  apply checkWallCollisions_true. apply (blocked_incl h ws ws' p Hi).
  now apply checkWallCollisions_true.
Qed.

Lemma more_walls_block_more_witness :
  incl (firstn 1 (walls init)) (walls init) /\
  checkWallCollisions 1.8 (firstn 1 (walls init)) (mkVector3 0 1.8 (-5)) = true /\
  checkWallCollisions 1.8 (walls init) (mkVector3 0 1.8 (-5)) = true.
Proof.
  assert (Hi : incl (firstn 1 (walls init)) (walls init)).
  { intros w Hw. simpl in Hw. destruct Hw as [Hw | []]. subst w. simpl. now left. }
  assert (Hc : checkWallCollisions 1.8 (firstn 1 (walls init))
                 (mkVector3 0 1.8 (-5)) = true).
  { unfold checkWallCollisions. rewrite anyWallIntersects_boxes. simpl.
    rewrite MazeFacts.setFromObject_straight.
    unfold playerBBox, intersectsBox. simpl. eval_tests. reflexivity. }
  split; [exact Hi |]. split; [exact Hc |].
  apply (more_walls_block_more 1.8 (firstn 1 (walls init)) (walls init)
           (mkVector3 0 1.8 (-5)) Hi Hc).
Defined.

(** X6. The resolver's answer depends on which walls are in the list, not
    on their order or on repetitions. *)
Theorem wall_order_irrelevant :
  forall (h : R) (ws ws' : list Wall) (cur vel : Vector3),
    incl ws ws' -> incl ws' ws ->
    resolve h ws cur vel = resolve h ws' cur vel.
Proof.
  intros h ws ws' cur vel H1 H2. unfold resolve.
  now rewrite (checkWallCollisions_incl h ws ws' (add cur vel) H1 H2).
Qed.

Lemma wall_order_irrelevant_witness :
  incl (walls init) (rev (walls init)) /\
  incl (rev (walls init)) (walls init) /\
  resolve 1.8 (walls init) (mkVector3 0 1.8 1) (mkVector3 0 0 (-6)) =
  resolve 1.8 (rev (walls init)) (mkVector3 0 1.8 1) (mkVector3 0 0 (-6)).
Proof.
  assert (H1 : incl (walls init) (rev (walls init)))
    by (intros w Hw; now apply in_rev in Hw).
  assert (H2 : incl (rev (walls init)) (walls init))
    by (intros w Hw; now apply in_rev).
  split; [exact H1 |]. split; [exact H2 |].
  apply (wall_order_irrelevant 1.8 (walls init) (rev (walls init))
           (mkVector3 0 1.8 1) (mkVector3 0 0 (-6)) H1 H2).
Defined.

(** X7. The box test is symmetric: the player's box intersects a wall's box
    exactly when the wall's box intersects the player's. *)
Theorem intersectsBox_symmetric :
  forall a b : Box3, intersectsBox a b = intersectsBox b a.
Proof.
  intros a b.
  destruct (intersectsBox a b) eqn:E, (intersectsBox b a) eqn:E'; try reflexivity.
  - apply intersectsBox_overlaps in E. apply intersectsBox_false in E'.
    elim E'. unfold overlaps in *. tauto.
  - apply intersectsBox_overlaps in E'. apply intersectsBox_false in E.
    elim E. unfold overlaps in *. tauto.
Qed.

(** X8. Whatever the position and the rotation of a wall, its box is well
    formed: the minimum corner is below the maximum corner on every axis. *)
Theorem wall_box_wellFormed :
  forall (p : Vector3) (r : Euler), wellFormed (bbox (createWall p r)).
Proof.
  intros p r. unfold createWall. simpl.
  unfold setFromObject, box_applyMatrix4, setFromPoints.
  apply fold_expand_wellFormed. unfold wellFormed. simpl. lra.
Qed.

(** X9. [createMaze] appends its six walls to the walls already there: run
    on a non-empty list it keeps the old walls in front, and run twice it
    leaves twelve walls. *)
Theorem createMaze_appends :
  forall ws : list Wall,
    createMaze ws = ws ++ createMaze [] /\
    List.length (createMaze ws) = (List.length ws + 6)%nat /\
    List.length (createMaze (createMaze [])) = 12%nat.
Proof.
  intro ws. split; [apply createMaze_app |]. split.
  - rewrite createMaze_app, length_app. reflexivity.
  - reflexivity.
Qed.

(** X10. The box of a wall turned by any angle [t] about the vertical axis
    is centred on the wall's position; its half extents are
    [5 |cos t| + 0.25 |sin t|] along [X], [1.5] along [Y] and
    [5 |sin t| + 0.25 |cos t|] along [Z]. *)
Theorem wall_box_extents :
  forall (p : Vector3) (t : R),
    let hx := 5 * Rabs (cos t) + 0.25 * Rabs (sin t) in
    let hz := 5 * Rabs (sin t) + 0.25 * Rabs (cos t) in
    bbox (createWall p (mkEuler 0 t 0)) =
    mkBox3 (mkVector3 (x p - hx) (y p - 1.5) (z p - hz))
           (mkVector3 (x p + hx) (y p + 1.5) (z p + hz)).
Proof.
  intros p t hx hz. unfold hx, hz, createWall. simpl.
  unfold setFromObject, box_applyMatrix4, setFromPoints.
  rewrite !MazeFacts.applyMatrix4_yaw.
  unfold wallGeometry, BoxGeometry_boundingBox, expandByPoint. simpl.
  generalize (cos t) (sin t). intros c s.
  destruct (Rle_dec 0 c) as [Hc | Hc]; destruct (Rle_dec 0 s) as [Hs | Hs];
    [ rewrite (Rabs_right c), (Rabs_right s) by lra
    | rewrite (Rabs_right c), (Rabs_left s) by lra
    | rewrite (Rabs_left c), (Rabs_right s) by lra
    | rewrite (Rabs_left c), (Rabs_left s) by lra ];
    MazeFacts.eval_min_max; f_equal; apply Vector3_eq;
    unfold Rmax, Rmin;
    repeat match goal with
           | |- context [Rle_dec ?a ?b] => destruct (Rle_dec a b)
           end; lra.
Qed.

Module NotesFacts.

Import THREE ThreeMaze Props MoreProps Notes THREEFacts CollisionFacts.

(** One axis step of the sliding response is a call of the resolver. *)
Lemma handleCollisions_resolve (h : R) (ws : list Wall) (p v : Vector3) :
  handleCollisions h ws p v =
  resolve h ws (resolve h ws p (mkVector3 (x v) 0 0)) (mkVector3 0 0 (z v)).
Proof. reflexivity. Qed.

(** A free position stays free through one call of the resolver. *)
Lemma resolve_clear (h : R) (ws : list Wall) (p v : Vector3) :
  clear h ws p -> clear h ws (resolve h ws p v).
Proof.
  intro Hp. unfold resolve.
  destruct (checkWallCollisions h ws (add p v)) eqn:E; simpl.
  - exact Hp.
  - now apply checkWallCollisions_false.
Qed.

Lemma resolve_y_flat (h : R) (ws : list Wall) (p v : Vector3) :
  y v = 0 -> y (resolve h ws p v) = y p.
Proof.
  intro Hv. unfold resolve.
  destruct (negb (checkWallCollisions h ws (add p v))); simpl; lra.
Qed.

End NotesFacts.

Import Notes NotesFacts.

(** X11. The sliding response keeps a free player free, and it never changes
    the player's height, whatever the vertical component of the velocity. *)
Theorem sliding_keeps_clear :
  forall (h : R) (ws : list Wall) (p v : Vector3),
    clear h ws p ->
    clear h ws (handleCollisions h ws p v) /\
    y (handleCollisions h ws p v) = y p.
Proof.
  intros h ws p v Hp. rewrite handleCollisions_resolve. split.
  - apply resolve_clear. now apply resolve_clear.
  - rewrite !resolve_y_flat by reflexivity. reflexivity.
Qed.

Lemma sliding_keeps_clear_witness :
  clear 1.8 (walls init) (mkVector3 0 1.8 (-4)) /\
  clear 1.8 (walls init)
    (handleCollisions 1.8 (walls init) (mkVector3 0 1.8 (-4)) (mkVector3 1 2 (-1))) /\
  y (handleCollisions 1.8 (walls init) (mkVector3 0 1.8 (-4)) (mkVector3 1 2 (-1))) = 1.8.
Proof.
  assert (H : clear 1.8 (walls init) (mkVector3 0 1.8 (-4))).
  { apply checkWallCollisions_false. rewrite checkWallCollisions_maze.
    unfold mazeBoxes, playerBBox, intersectsBox. simpl. eval_tests. reflexivity. }
  split; [exact H |].
  apply (sliding_keeps_clear 1.8 (walls init) (mkVector3 0 1.8 (-4))
           (mkVector3 1 2 (-1)) H).
Defined.

(** X12. Sticky against sliding: when the whole move is blocked, the move
    along [X] alone is free and the move along [Z] after it is blocked, the
    resolver keeps the player where it is while the sliding response moves
    it along [X]. *)
Theorem sticky_versus_sliding :
  forall (h : R) (ws : list Wall) (p v : Vector3),
    checkWallCollisions h ws (add p v) = true ->
    checkWallCollisions h ws (add p (mkVector3 (x v) 0 0)) = false ->
    checkWallCollisions h ws
      (add (add p (mkVector3 (x v) 0 0)) (mkVector3 0 0 (z v))) = true ->
    resolve h ws p v = p /\
    handleCollisions h ws p v = add p (mkVector3 (x v) 0 0).
Proof.
  intros h ws p v Hall Hx Hz. split.
  - now apply resolve_rejects.
  - rewrite handleCollisions_resolve.
    rewrite (resolve_accepts h ws p _ Hx). now apply resolve_rejects.
Qed.

Lemma sticky_versus_sliding_witness :
  let p := mkVector3 0 1.8 (-4) in
  let v := mkVector3 1 0 (-1) in
  (checkWallCollisions 1.8 (walls init) (add p v) = true /\
   checkWallCollisions 1.8 (walls init) (add p (mkVector3 (x v) 0 0)) = false /\
   checkWallCollisions 1.8 (walls init)
     (add (add p (mkVector3 (x v) 0 0)) (mkVector3 0 0 (z v))) = true) /\
  resolve 1.8 (walls init) p v = p /\
  handleCollisions 1.8 (walls init) p v = add p (mkVector3 (x v) 0 0).
Proof.
  intros p v.
  assert (H1 : checkWallCollisions 1.8 (walls init) (add p v) = true).
  { rewrite checkWallCollisions_maze.
    unfold mazeBoxes, playerBBox, intersectsBox, add. simpl. eval_tests. reflexivity. }
  assert (H2 : checkWallCollisions 1.8 (walls init)
                 (add p (mkVector3 (x v) 0 0)) = false).
  { rewrite checkWallCollisions_maze.
    unfold mazeBoxes, playerBBox, intersectsBox, add. simpl. eval_tests. reflexivity. }
  assert (H3 : checkWallCollisions 1.8 (walls init)
                 (add (add p (mkVector3 (x v) 0 0)) (mkVector3 0 0 (z v))) = true).
  { rewrite checkWallCollisions_maze.
    unfold mazeBoxes, playerBBox, intersectsBox, add. simpl. eval_tests. reflexivity. }
  split; [repeat split; assumption |].
  apply (sticky_versus_sliding 1.8 (walls init) p v H1 H2 H3).
Defined.

(** ** Mouse look, continued *)

Module MoreLookFacts.

Import THREE ThreeMaze Props MoreProps LookFacts.

(** A mouse move under pointer lock, for an event that reports only
    [movementX] and [movementY], zero or not. *)
Lemma onMouseMove_locked_any (dx dy : R) (s : State) :
  isLocked (pointer s) = true ->
  onMouseMove (mouseDelta dx dy) s =
  let h := horizontal (rotationRef s) - dx * sensitivity in
  let v := Rmax (- PI / 2) (Rmin (PI / 2) (vertical (rotationRef s) - dy * sensitivity)) in
  mkState (mkCamera (position (camera s)) (mkEuler v h (ez (rotation (camera s)))))
    (player s) (moveState s) (mkRotation h v) (walls s) (pointer s)
    (instructions s).
Proof.
  intro HL. unfold onMouseMove, mouseDelta. rewrite HL.
  cbn [movementX movementY mozMovementX mozMovementY webkitMovementX webkitMovementY].
  assert (E : forall d, JS.or_else (Some d) (JS.or_else None (JS.or_else None 0)) = d).
  { intro d. unfold JS.or_else. destruct (Req_dec_T d 0); congruence. }
  rewrite !E. reflexivity.
Qed.

Lemma clamp_saturate (t : R) :
  Rmax (- PI / 2) (Rmin (PI / 2) t) = saturate t.
Proof.
  pose proof PI_RGT_0 as HPI. unfold saturate.
  destruct (Rle_dec (PI / 2) t) as [H1 | H1].
  - rewrite Rmin_left by exact H1. apply Rmax_right. lra.
  - rewrite Rmin_right by lra.
    destruct (Rle_dec t (- PI / 2)) as [H2 | H2].
    + apply Rmax_left. exact H2.
    + apply Rmax_right. lra.
Qed.

Lemma step_instructions (s : State) (e : Event) :
  instructions s = negb (isLocked (pointer s)) ->
  instructions (step s e) = negb (isLocked (pointer (step s e))).
Proof.
  intro H. destruct e as [code | code | event | granted | delta]; simpl.
  - exact H.
  - exact H.
  - unfold onMouseMove.
    destruct (isLocked (pointer s)) eqn:E; simpl; rewrite ?E; exact H.
  - destruct granted; reflexivity.
  - unfold animate.
    destruct (isLocked (pointer s)) eqn:E; simpl; rewrite ?E; exact H.
Qed.

Lemma step_sameWorld (s0 s : State) (e : Event) :
  sameWorld s0 s -> sameWorld s0 (step s e).
Proof.
  intro H. destruct e as [code | code | event | granted | delta]; simpl.
  - exact H.
  - exact H.
  - unfold onMouseMove. destruct (isLocked (pointer s)); exact H.
  - destruct granted; exact H.
  - unfold animate. destruct (isLocked (pointer s)); exact H.
Qed.

End MoreLookFacts.

Import MoreLookFacts.

(** X13. Under pointer lock the horizontal look angle accumulates without
    bound or wrap-around: after any sequence of mouse moves it is the
    starting angle minus the sensitivity times the sum of the horizontal
    deltas, and the pointer is still locked. *)
Theorem yaw_accumulates :
  forall (ds : list (R * R)) (s : State),
    isLocked (pointer s) = true ->
    horizontal (rotationRef (run s (mouseMoves ds))) =
      horizontal (rotationRef s) - sumX ds * sensitivity /\
    isLocked (pointer (run s (mouseMoves ds))) = true.
Proof.
  induction ds as [| [dx dy] ds IH]; intros s HL.
  - simpl. split; [lra | exact HL].
  - unfold mouseMoves. cbn [map run fold_left step fst snd].
    fold (mouseMoves ds). fold (run (onMouseMove (mouseDelta dx dy) s) (mouseMoves ds)).
    rewrite onMouseMove_locked_any by exact HL.
    match goal with |- context [run ?s1 _] => destruct (IH s1 HL) as [Hh Hl] end.
    split; [| exact Hl]. rewrite Hh. simpl. lra.
Qed.

Lemma yaw_accumulates_witness :
  let s := step init (PointerLockChange true) in
  isLocked (pointer s) = true /\
  horizontal (rotationRef (run s (mouseMoves [(100, 50); (-40, 0)]))) =
    horizontal (rotationRef s) - sumX [(100, 50); (-40, 0)] * sensitivity /\
  isLocked (pointer (run s (mouseMoves [(100, 50); (-40, 0)]))) = true.
Proof.
  intro s. split; [reflexivity |].
  apply (yaw_accumulates [(100, 50); (-40, 0)] s). reflexivity.
Defined.

(** X14. A mouse event whose [movementX] is missing or zero falls back to
    [mozMovementX]: under pointer lock the horizontal angle then moves by
    that value times the sensitivity. *)
Theorem movementX_falls_back :
  forall (e : MouseEvent) (m : R) (s : State),
    isLocked (pointer s) = true ->
    movementX e = None \/ movementX e = Some 0 ->
    mozMovementX e = Some m ->
    m <> 0 ->
    horizontal (rotationRef (onMouseMove e s)) =
    horizontal (rotationRef s) - m * sensitivity.
Proof.
  intros e m s HL HX HM Hm. unfold onMouseMove. rewrite HL. simpl.
  rewrite HM. unfold JS.or_else at 2. destruct (Req_dec_T m 0); [contradiction |].
  destruct HX as [-> | ->]; simpl; [reflexivity |].
  destruct (Req_dec_T 0 0) as [_ | H0]; [reflexivity | now elim H0].
Qed.

Lemma movementX_falls_back_witness :
  let e := mkMouseEvent (Some 0) (Some 7) None None None None in
  let s := step init (PointerLockChange true) in
  isLocked (pointer s) = true /\
  horizontal (rotationRef (onMouseMove e s)) =
  horizontal (rotationRef s) - 7 * sensitivity.
Proof.
  intros e s. split; [reflexivity |].
  apply (movementX_falls_back e 7 s); [reflexivity | right; reflexivity | reflexivity | lra].
Defined.

(** X15. Under pointer lock the vertical look angle after a mouse move is
    the moved angle saturated to [[-PI/2, PI/2]]: exact inside the range,
    [PI/2] above it and [-PI/2] below it, so that nothing accumulates past
    the limits. *)
Theorem pitch_saturates :
  forall (dx dy : R) (s : State),
    isLocked (pointer s) = true ->
    vertical (rotationRef (onMouseMove (mouseDelta dx dy) s)) =
    saturate (vertical (rotationRef s) - dy * sensitivity).
Proof.
  intros dx dy s HL. rewrite onMouseMove_locked_any by exact HL.
  simpl. apply clamp_saturate.
Qed.

Lemma pitch_saturates_witness :
  let s := step init (PointerLockChange true) in
  isLocked (pointer s) = true /\
  vertical (rotationRef (onMouseMove (mouseDelta 100 50) s)) =
  saturate (vertical (rotationRef s) - 50 * sensitivity).
Proof.
  intro s. split; [reflexivity |].
  apply (pitch_saturates 100 50 s). reflexivity.
Defined.

(** X16. In every state reached from the initial state the instructions
    overlay is displayed exactly when the pointer is not locked. *)
Theorem instructions_follow_lock :
  forall es : list Event,
    instructions (run init es) = negb (isLocked (pointer (run init es))).
Proof.
  intro es.
  apply (run_invariant (fun s => instructions s = negb (isLocked (pointer s)))).
  - exact step_instructions.
  - reflexivity.
Qed.

(** X17. No event changes the walls, the player's height or the player's
    speed: every state of a run has those of the state the run started in. *)
Theorem world_is_fixed :
  forall (es : list Event) (s : State),
    walls (run s es) = walls s /\
    height (player (run s es)) = height (player s) /\
    speed (player (run s es)) = speed (player s).
Proof.
  intros es s.
  apply (run_invariant (sameWorld s)).
  - exact (step_sameWorld s).
  - repeat split.
Qed.

(** X18. In every state reached from the initial state the camera's Euler
    rotation is the pair of look angles, pitch about [X] and yaw about [Y],
    with no roll. *)
Theorem camera_follows_look :
  forall es : list Event,
    rotation (camera (run init es)) =
    mkEuler (vertical (rotationRef (run init es)))
            (horizontal (rotationRef (run init es))) 0.
Proof.
  intro es.
  apply (run_invariant lookSynced); [exact step_lookSynced | exact init_lookSynced].
Qed.

(** ** The frame update, continued *)

Module MoreFrameFacts.

Import THREE ThreeMaze Props MoreProps THREEFacts AxesFacts CollisionFacts
  FrameFacts NotesFacts.

Lemma resolve_still (h : R) (ws : list Wall) (p : Vector3) :
  resolve h ws p (mkVector3 0 0 0) = p.
Proof.
  unfold resolve. rewrite add_zero.
  destruct (negb (checkWallCollisions h ws p)); reflexivity.
Qed.

(** Opposite keys cancel in the velocity. *)
Lemma computeVelocity_cancel (m : MoveState) (c : Camera) (sp : R) :
  forward m = backward m -> left m = right m ->
  computeVelocity m c sp = mkVector3 0 0 0.
Proof.
  intros Hf Hl. unfold computeVelocity. rewrite Hf, Hl.
  destruct (backward m), (right m); unfold add, multiplyScalar; simpl;
    apply Vector3_eq; ring.
Qed.

(** A zero speed gives a zero velocity. *)
Lemma computeVelocity_zero_speed (m : MoveState) (c : Camera) :
  computeVelocity m c 0 = mkVector3 0 0 0.
Proof.
  unfold computeVelocity.
  destruct (forward m), (backward m), (left m), (right m);
    unfold add, multiplyScalar; simpl; apply Vector3_eq; ring.
Qed.

Lemma step_playerClear (s : State) (e : Event) :
  playerClear s -> playerClear (step s e).
Proof.
  intro H. destruct e as [code | code | event | granted | delta]; simpl.
  - exact H.
  - exact H.
  - unfold onMouseMove. destruct (isLocked (pointer s)); exact H.
  - destruct granted; exact H.
  - unfold animate. destruct (isLocked (pointer s)); [| exact H].
    unfold playerClear. simpl. now apply resolve_clear.
Qed.

Lemma init_playerClear : playerClear init.
Proof.
  unfold playerClear. apply checkWallCollisions_false.
  simpl height. simpl position. rewrite checkWallCollisions_maze.
  unfold mazeBoxes, playerBBox, intersectsBox. simpl. eval_tests. reflexivity.
Qed.

(** The squared length of a normalised vector that is not the zero vector. *)
Lemma normalize_sq (v : Vector3) :
  x v * x v + y v * y v + z v * z v <> 0 ->
  let n := normalize v in x n * x n + y n * y n + z n * z n = 1.
Proof.
  intros Hv n. unfold n, normalize, divideScalar, multiplyScalar, length. simpl.
  set (S := x v * x v + y v * y v + z v * z v) in *.
  assert (HS : 0 <= S) by (unfold S; nra).
  assert (HL : sqrt S * sqrt S = S) by (apply sqrt_def; exact HS).
  assert (HL0 : sqrt S <> 0).
  { intro H0. rewrite H0 in HL. lra. }
  rewrite JSFacts.or_num_nonzero by exact HL0.
  replace (x v * (1 / sqrt S) * (x v * (1 / sqrt S)) +
           y v * (1 / sqrt S) * (y v * (1 / sqrt S)) +
           z v * (1 / sqrt S) * (z v * (1 / sqrt S)))
    with (S / (sqrt S * sqrt S)) by (unfold S; field; exact HL0).
  rewrite HL. field. lra.
Qed.

(** The length of a vector whose squared length is [sp * sp]. *)
Lemma length_of_square (v : Vector3) (sp : R) :
  0 <= sp -> x v * x v + y v * y v + z v * z v = sp * sp -> length v = sp.
Proof.
  intros Hsp Hv. unfold length. rewrite Hv. now apply sqrt_square.
Qed.

(** Unless the camera looks straight up or down, [direction] has length 1. *)
Lemma direction_sq (pos : Vector3) (p yw : R) :
  cos p <> 0 ->
  let d := direction (mkCamera pos (mkEuler p yw 0)) in
  x d * x d + y d * y d + z d * z d = 1.
Proof.
  intros Hp d. unfold d, direction, quaternion. cbn [rotation].
  rewrite forward_axis.
  apply normalize_sq. unfold set_y. simpl.
  pose proof (sin_cos_one yw) as H1. intro H0.
  assert (Hs : sin yw = 0) by nra.
  assert (Hc : cos p * cos yw = 0) by nra.
  rewrite Hs in H1. apply Rmult_integral in Hc. destruct Hc as [Hc | Hc].
  - exact (Hp Hc).
  - rewrite Hc in H1. lra.
Qed.

Lemma rightVector_sq (pos : Vector3) (p yw : R) :
  let r := rightVector (mkCamera pos (mkEuler p yw 0)) in
  x r * x r + y r * y r + z r * z r = 1.
Proof.
  intro r. unfold r. rewrite rightVector_axis. simpl.
  generalize (sin_cos_one p) (sin_cos_one yw).
  generalize (sin p) (cos p) (sin yw) (cos yw). intros s1 c1 s2 c2 H1 H2. nsatz.
Qed.

End MoreFrameFacts.

Import MoreFrameFacts.

(** X19. In every state reached from the initial state, through any keys,
    mouse moves, lock changes and frames of any length, the player's box at
    the camera position intersects no wall of the maze. *)
Theorem player_never_in_wall :
  forall es : list Event,
    clear (height (player (run init es))) (walls (run init es))
      (position (camera (run init es))).
Proof.
  intro es.
  apply (run_invariant playerClear); [exact step_playerClear | exact init_playerClear].
Qed.

(** X20. Opposite keys cancel: when forward and backward are both pressed or
    both released, and likewise left and right, the velocity is zero for
    every camera rotation and a frame leaves the camera position as it is. *)
Theorem opposite_keys_cancel :
  forall (delta : R) (s : State),
    forward (moveState s) = backward (moveState s) ->
    left (moveState s) = right (moveState s) ->
    computeVelocity (moveState s) (camera s) (speed (player s) * delta) =
      mkVector3 0 0 0 /\
    position (camera (animate delta s)) = position (camera s).
Proof.
  intros delta s Hf Hl.
  pose proof (computeVelocity_cancel (moveState s) (camera s)
                (speed (player s) * delta) Hf Hl) as Hv.
  split; [exact Hv |].
  destruct (isLocked (pointer s)) eqn:HL.
  - rewrite animate_position by exact HL. rewrite Hv. apply resolve_still.
  - now rewrite animate_unlocked.
Qed.

Lemma opposite_keys_cancel_witness :
  let s := run lookingUpLeft [KeyDown "KeyW"; KeyDown "ArrowDown"] in
  forward (moveState s) = backward (moveState s) /\
  left (moveState s) = right (moveState s) /\
  computeVelocity (moveState s) (camera s) (speed (player s) * 1) =
    mkVector3 0 0 0 /\
  position (camera (animate 1 s)) = position (camera s).
Proof.
  intro s. split; [reflexivity |]. split; [reflexivity |].
  apply (opposite_keys_cancel 1 s); reflexivity.
Defined.

(** X21. Strafing speed does not depend on where the camera looks: with
    exactly one of left and right pressed and neither forward nor backward,
    the velocity of a frame has magnitude [speed * delta] for every yaw and
    pitch. *)
Theorem strafe_speed :
  forall (delta p yw : R) (s : State),
    isLocked (pointer s) = true ->
    rotation (camera s) = mkEuler p yw 0 ->
    forward (moveState s) = false ->
    backward (moveState s) = false ->
    xorb (left (moveState s)) (right (moveState s)) = true ->
    0 <= speed (player s) * delta ->
    length (velocity (player (animate delta s))) = speed (player s) * delta.
Proof.
  intros delta p yw s HL Hrot Hf Hb Hx Hsp.
  rewrite animate_velocity by exact HL.
  apply length_of_square; [exact Hsp |].
  destruct s as [[pos rot] pl ms rr ws ptr ins]. simpl in *. subst rot.
  pose proof (rightVector_sq pos p yw) as Hr. cbv zeta in Hr.
  unfold computeVelocity. rewrite Hf, Hb. clear Hsp. revert Hr.
  generalize (rightVector (mkCamera pos (mkEuler p yw 0))).
  intros r Hr. generalize (speed pl * delta). intro sp.
  destruct (left ms), (right ms); try discriminate Hx;
    unfold add, multiplyScalar; simpl; nsatz.
Qed.

Lemma strafe_speed_witness :
  let s := step lookingUpLeft (KeyDown "KeyA") in
  (isLocked (pointer s) = true /\
   rotation (camera s) = mkEuler (PI / 2) 1 0 /\
   forward (moveState s) = false /\
   backward (moveState s) = false /\
   xorb (left (moveState s)) (right (moveState s)) = true /\
   0 <= speed (player s) * 1) /\
  length (velocity (player (animate 1 s))) = speed (player s) * 1.
Proof.
  intro s.
  assert (Hsp : 0 <= speed (player s) * 1) by (simpl; lra).
  split; [repeat split; try reflexivity; exact Hsp |].
  apply (strafe_speed 1 (PI / 2) 1 s); try reflexivity. exact Hsp.
Defined.

(** X22. Unless the camera looks straight up or down (the cosine of the
    pitch is zero), walking speed does not depend on where the camera
    looks: with exactly one of forward and backward pressed and no
    strafing, the velocity of a frame has magnitude [speed * delta]. *)
Theorem walk_speed :
  forall (delta p yw : R) (s : State),
    isLocked (pointer s) = true ->
    rotation (camera s) = mkEuler p yw 0 ->
    cos p <> 0 ->
    xorb (forward (moveState s)) (backward (moveState s)) = true ->
    left (moveState s) = false ->
    right (moveState s) = false ->
    0 <= speed (player s) * delta ->
    length (velocity (player (animate delta s))) = speed (player s) * delta.
Proof.
  intros delta p yw s HL Hrot Hp Hx Hl Hr Hsp.
  rewrite animate_velocity by exact HL.
  apply length_of_square; [exact Hsp |].
  destruct s as [[pos rot] pl ms rr ws ptr ins]. simpl in *. subst rot.
  pose proof (direction_sq pos p yw Hp) as Hd. cbv zeta in Hd.
  unfold computeVelocity. rewrite Hl, Hr. clear Hsp. revert Hd.
  generalize (direction (mkCamera pos (mkEuler p yw 0))).
  intros d Hd. generalize (speed pl * delta). intro sp.
  destruct (forward ms), (backward ms); try discriminate Hx;
    unfold add, multiplyScalar; simpl; nsatz.
Qed.

Lemma walk_speed_witness :
  let s := run init [PointerLockChange true; KeyDown "KeyS"] in
  (isLocked (pointer s) = true /\
   rotation (camera s) = mkEuler 0 0 0 /\
   cos 0 <> 0 /\
   xorb (forward (moveState s)) (backward (moveState s)) = true /\
   left (moveState s) = false /\
   right (moveState s) = false /\
   0 <= speed (player s) * 1) /\
  length (velocity (player (animate 1 s))) = speed (player s) * 1.
Proof.
  intro s.
  assert (Hsp : 0 <= speed (player s) * 1) by (simpl; lra).
  assert (Hc : cos 0 <> 0) by (rewrite cos_0; lra).
  split; [repeat split; try reflexivity; assumption |].
  apply (walk_speed 1 0 0 s); try reflexivity; assumption.
Defined.

(** X23. A frame whose time delta is zero moves nothing: the camera position
    is unchanged whatever keys are pressed. *)
Theorem zero_delta_frame :
  forall s : State, position (camera (animate 0 s)) = position (camera s).
Proof.
  intro s. destruct (isLocked (pointer s)) eqn:HL.
  - rewrite animate_position by exact HL.
    rewrite Rmult_0_r, computeVelocity_zero_speed. apply resolve_still.
  - now rewrite animate_unlocked.
Qed.

(** X24. Walking forward from the start towards the wall at [z = -5], in one
    frame of length [delta >= 0]: the frame is rejected exactly when
    [1.09 <= delta <= 1.31], the range in which the player's box would
    reach the wall; a shorter frame moves the player by [5 * delta], and a
    longer frame also does, placing the player beyond the wall: the test
    looks at the end position only, not at the path. *)
Theorem walking_into_first_wall :
  forall delta : R,
    0 <= delta ->
    position (camera (run init [PointerLockChange true; KeyDown "KeyW"; Frame delta])) =
    if (JS.leb 1.09 delta && JS.leb delta 1.31)%bool
    then mkVector3 1 1.8 1
    else mkVector3 1 1.8 (1 - 5 * delta).
Proof.
  intros delta Hd. unfold run. cbn [fold_left].
  set (s := step (step init (PointerLockChange true)) (KeyDown "KeyW")).
  cbn [step]. rewrite animate_position by reflexivity.
  assert (Hv : computeVelocity (moveState s) (camera s) (speed (player s) * delta) =
               mkVector3 0 0 (- (5 * delta))).
  { unfold computeVelocity, s. cbn [step onKeyDown onPointerLockChange with_moveState
      moveState camera player speed init forward backward left right setKey].
    simpl moveState. cbn [forward backward left right].
    rewrite direction_level, sin_0, cos_0.
    unfold add, multiplyScalar. simpl. apply Vector3_eq; lra. }
  rewrite Hv.
  replace (height (player s)) with 1.8 by reflexivity.
  replace (walls s) with (walls init) by reflexivity.
  replace (position (camera s)) with (mkVector3 1 1.8 1) by reflexivity.
  assert (Ha : add (mkVector3 1 1.8 1) (mkVector3 0 0 (- (5 * delta))) =
               mkVector3 1 1.8 (1 - 5 * delta))
    by (unfold add; simpl; apply Vector3_eq; lra).
  unfold JS.leb at 1 2.
  destruct (Rle_dec 1.09 delta) as [H1 | H1];
    destruct (Rle_dec delta 1.31) as [H2 | H2]; cbn [andb].
  - apply resolve_rejects. rewrite Ha, checkWallCollisions_maze.
    unfold mazeBoxes, playerBBox, intersectsBox. simpl. eval_tests. reflexivity.
  - rewrite resolve_accepts; [exact Ha |]. rewrite Ha, checkWallCollisions_maze.
    unfold mazeBoxes, playerBBox, intersectsBox. simpl. eval_tests. reflexivity.
  - rewrite resolve_accepts; [exact Ha |]. rewrite Ha, checkWallCollisions_maze.
    unfold mazeBoxes, playerBBox, intersectsBox. simpl. eval_tests. reflexivity.
  - lra.
Qed.

Lemma walking_into_first_wall_witness :
  0 <= 2 /\
  position (camera (run init [PointerLockChange true; KeyDown "KeyW"; Frame 2])) =
  if (JS.leb 1.09 2 && JS.leb 2 1.31)%bool
  then mkVector3 1 1.8 1
  else mkVector3 1 1.8 (1 - 5 * 2).
Proof.
  assert (H : 0 <= 2) by lra.
  split; [exact H | apply (walking_into_first_wall 2 H)].
Defined.
